(** * sympy-relational-tools: applying an operation to both sides of a relation

    A shallow embedding of [sympy_relational_tools.py] (and of its
    equations-only sibling [sympy_equation_tools.py]).

    SymPy itself is not part of the repository: expressions, the assumption
    system ([is_positive], [is_negative]), the evaluation of a freshly built
    relational, and [solveset] are taken as an interface, the class [SymPy]
    below.  The functions of the repository are written once, over any
    implementation of that interface.  A small test double, [Double], gives
    concrete expressions to run the functions on.

    What Python does on the side is kept explicit:
    - an exception ends the computation ([Raise]);
    - every question put to the assumption system or to [solveset] is logged,
      in program order, so that "which query happens before which check" is a
      statement about the log;
    - the [evaluate=False] flag of a relational constructor is a parameter of
      [new_relational];
    - a dictionary is an insertion-ordered association list in which storing
      under a key already present overwrites the value in place. *)

From Stdlib Require Import ZArith List String Bool Lia.
From stdpp Require Import base decidable option list strings.
Import ListNotations.

Set Default Proof Using "Type".

(** ** Python values shared by every implementation of SymPy *)

(** The relational classes of SymPy under the names the source imports. *)
Inductive Kind : Set := Eq | Ne | Ge | Le | Gt | Lt.

#[global] Instance Kind_eq_dec : EqDecision Kind.
Proof. solve_decision. Defined.

(** The callables the dispatcher compares its [function] argument with, and
    any other callable. *)
Inductive Function : Set :=
| Add | Mul | Pow
| factor | simplify | collect | expand | together | apart
| Callable (name : string).

#[global] Instance Function_eq_dec : EqDecision Function.
Proof. solve_decision. Defined.

Inductive Exception : Set :=
| TypeError | ValueError | ZeroDivisionError | NotImplementedError
| KeyError | AttributeError.

#[global] Instance Exception_eq_dec : EqDecision Exception.
Proof. solve_decision. Defined.

(** A relational object: [relation.func], [relation.lhs], [relation.rhs]. *)
Record Relational (E : Type) : Type :=
  mkRelational { func : Kind; lhs : E; rhs : E }.
Arguments mkRelational {E} func lhs rhs.
Arguments func {E} r.
Arguments lhs {E} r.
Arguments rhs {E} r.

(** What a relational constructor may return, and what [solveset] accepts:
    an unevaluated relational, one of the two Boolean atoms, or a plain
    expression. *)
Inductive Basic (E : Type) : Type :=
| Rel (r : Relational E)
| BooleanTrue
| BooleanFalse
| Ex (e : E).
Arguments Rel {E} r.
Arguments BooleanTrue {E}.
Arguments BooleanFalse {E}.
Arguments Ex {E} e.

#[global] Instance Relational_eq_dec {E : Type} `{EqDecision E} : EqDecision (Relational E).
Proof. solve_decision. Defined.

#[global] Instance Basic_eq_dec {E : Type} `{EqDecision E} : EqDecision (Basic E).
Proof. solve_decision. Defined.

(** ** Dictionaries *)

Module dict.

Definition t (K V : Type) : Type := list (K * V).

Definition empty {K V : Type} : t K V := [].

(** [d[k] = v]: overwrite in place when [k] is a key, append otherwise. *)
Fixpoint setitem {K V : Type} `{EqDecision K} (d : t K V) (k : K) (v : V) : t K V :=
  match d with
  | [] => [(k, v)]
  | (k', v') :: d' =>
      if decide (k' = k) then (k', v) :: d' else (k', v') :: setitem d' k v
  end.

Fixpoint get {K V : Type} `{EqDecision K} (d : t K V) (k : K) : option V :=
  match d with
  | [] => None
  | (k', v') :: d' => if decide (k' = k) then Some v' else get d' k
  end.

Definition keys {K V : Type} (d : t K V) : list K := fst <$> d.

End dict.

(** [_inverse_relations = { Ge: Le, Le: Ge, Gt: Lt, Lt: Gt }] *)
Definition _inverse_relations : dict.t Kind Kind :=
  [(Ge, Le); (Le, Ge); (Gt, Lt); (Lt, Gt)].

(** ** The interface to SymPy *)

Class SymPy (Expr SymSet : Type) : Type := {
  Expr_eq_dec :: EqDecision Expr;          (* structural [==] *)
  SymSet_eq_dec :: EqDecision SymSet;      (* [==] and hashing of sets *)
  Integer : Z -> Expr;                     (* a Python int, sympified *)
  add : Expr -> Expr -> Expr;              (* [a + b] *)
  sub : Expr -> Expr -> Expr;              (* [a - b] *)
  mul : Expr -> Expr -> Expr;              (* [a * b] *)
  truediv : Expr -> Expr -> Expr;          (* [a / b] *)
  neg : Expr -> Expr;                      (* [-a] *)
  is_positive : Expr -> option bool;       (* True, False or None *)
  is_negative : Expr -> option bool;
  (* what evaluating a relational decides: True, False or undecided *)
  fuzzy_relation : Kind -> Expr -> Expr -> option bool;
  (* a call with positional arguments, each an expression or None *)
  call : Function -> list (option Expr) -> Exception + Expr;
  solveset : Basic Expr -> option Expr -> SymSet -> SymSet;
  intersect : SymSet -> SymSet -> SymSet;
  EmptySet : SymSet;
}.

(** ** Computations: a log of queries and a result or an exception *)

Inductive Query (E S : Type) : Type :=
| ask_positive (e : E)
| ask_negative (e : E)
| ask_solveset (f : Basic E) (symbol : option E) (domain : S).
Arguments ask_positive {E S} e.
Arguments ask_negative {E S} e.
Arguments ask_solveset {E S} f symbol domain.

Inductive outcome (A : Type) : Type :=
| Return (a : A)
| Raise (e : Exception).
Arguments Return {A} a.
Arguments Raise {A} e.

Definition Py (E S A : Type) : Type := list (Query E S) * outcome A.

Definition ret {E S A : Type} (a : A) : Py E S A := ([], Return a).

Definition raise {E S A : Type} (e : Exception) : Py E S A := ([], Raise e).

Definition bind {E S A B : Type} (m : Py E S A) (k : A -> Py E S B) : Py E S B :=
  match m with
  | (log, Return a) => let (log', o) := k a in (log ++ log', o)
  | (log, Raise e) => (log, Raise e)
  end.

Notation "x <- m ;; k" := (bind m (fun x => k))
  (at level 100, m at next level, right associativity).

(** The queries made and the result, apart. *)
Definition queries {E S A : Type} (m : Py E S A) : list (Query E S) := fst m.
Definition result {E S A : Type} (m : Py E S A) : outcome A := snd m.

(** Python's [a and b]: [b] is evaluated only when [a] is true. *)
Definition py_and {E S : Type} (a b : Py E S bool) : Py E S bool :=
  x <- a ;; if x then b else ret false.

(** [d[k]] on a dictionary: [KeyError] when [k] is not a key. *)
Definition getitem {E S K V : Type} `{EqDecision K} (d : dict.t K V) (k : K) : Py E S V :=
  match dict.get d k with
  | Some v => ret v
  | None => raise KeyError
  end.

(** The result of one of the engine's functions: a single relational (or the
    Boolean it evaluated to), or a dictionary from sets to such. *)
Inductive Result (E S : Type) : Type :=
| Single (b : Basic E)
| Cases (d : dict.t S (Basic E)).
Arguments Single {E S} b.
Arguments Cases {E S} d.

(** ** sympy_relational_tools.py *)

Section Engine.

Context {Expr SymSet : Type} `{!SymPy Expr SymSet}.

Local Abbreviation M := (Py Expr SymSet).
Local Abbreviation Relation := (Relational Expr).

(** [cls(lhs, rhs)] and [cls(lhs, rhs, evaluate=False)] for a relational class
    [cls]: with evaluation the constructor returns a Boolean atom when the
    relation is decided, and the unevaluated relational otherwise. *)
Definition new_relational (cls : Kind) (l r : Expr) (evaluate : bool) : Basic Expr :=
  if evaluate then
    match fuzzy_relation cls l r with
    | Some true => BooleanTrue
    | Some false => BooleanFalse
    | None => Rel (mkRelational cls l r)
    end
  else Rel (mkRelational cls l r).

(** [e.is_positive == True], [e.is_negative == True]: one query each. *)
Definition provably_positive (e : Expr) : M bool :=
  ([ask_positive e], Return (bool_decide (is_positive e = Some true))).

Definition provably_negative (e : Expr) : M bool :=
  ([ask_negative e], Return (bool_decide (is_negative e = Some true))).

(** [solveset(f, symbol, domain=domain)] *)
Definition ask_solve (f : Basic Expr) (symbol : option Expr) (domain : SymSet) : M SymSet :=
  ([ask_solveset f symbol domain], Return (solveset f symbol domain)).

(** A call of [function] on positional arguments; its exception propagates. *)
Definition apply (function : Function) (args : list (option Expr)) : M Expr :=
  match call function args with
  | inr e => ret e
  | inl exn => raise exn
  end.

Definition add_equations (equation1 equation2 : Relation) : Basic Expr :=
  new_relational Eq (add (lhs equation1) (lhs equation2))
                    (add (rhs equation1) (rhs equation2)) true.

Definition sub_equations (equation1 equation2 : Relation) : Basic Expr :=
  new_relational Eq (sub (lhs equation1) (lhs equation2))
                    (sub (rhs equation1) (rhs equation2)) true.

Definition mul_equations (equation1 equation2 : Relation) : Basic Expr :=
  new_relational Eq (mul (lhs equation1) (lhs equation2))
                    (mul (rhs equation1) (rhs equation2)) true.

Definition div_equations (equation1 equation2 : Relation) : Basic Expr :=
  new_relational Eq (truediv (lhs equation1) (lhs equation2))
                    (truediv (rhs equation1) (rhs equation2)) true.

Definition invert_ineq (ineq : Relation) : M (Basic Expr) :=
  inverse <- getitem _inverse_relations (func ineq) ;;
  ret (new_relational inverse (neg (lhs ineq)) (neg (rhs ineq)) false).

(** [argument] is [None] when the caller of [both_sides] gave none; adding
    [None] to an expression is a [TypeError]. *)
Definition _both_sides_add_ineq (relation : Relation) (argument : option Expr)
  : M (Result Expr SymSet) :=
  match argument with
  | Some c =>
      ret (Single (new_relational (func relation)
                     (add (lhs relation) c) (add (rhs relation) c) false))
  | None => raise TypeError
  end.

Definition _both_sides_mul_ineq (relation : Relation) (argument : option Expr)
    (interval : option SymSet) (variable : option Expr) : M (Result Expr SymSet) :=
  match interval with
  | None =>
      match argument with
      | None => raise AttributeError      (* [None.is_positive] *)
      | Some c =>
          p <- provably_positive c ;;
          if p then
            ret (Single (new_relational (func relation)
                           (mul (lhs relation) c) (mul (rhs relation) c) false))
          else
            n <- provably_negative c ;;
            if n then
              inverse <- getitem _inverse_relations (func relation) ;;
              ret (Single (new_relational inverse
                             (mul (lhs relation) c) (mul (rhs relation) c) false))
            else if decide (c = Integer 0) then
              ret (Single (new_relational (func relation) (Integer 0) (Integer 0) true))
            else raise ValueError
      end
  | Some domain =>
      match variable with
      | None => raise TypeError
      | Some _ =>
          match argument with
          | None => raise TypeError       (* [None > 0] *)
          | Some c =>
              positive_interval <-
                ask_solve (new_relational Gt c (Integer 0) true) variable domain ;;
              negative_interval <-
                ask_solve (new_relational Lt c (Integer 0) true) variable domain ;;
              zeros <- ask_solve (Ex c) variable domain ;;
              let ans_if_positive :=
                new_relational (func relation)
                  (mul (lhs relation) c) (mul (rhs relation) c) false in
              inverse <- getitem _inverse_relations (func relation) ;;
              let ans_if_negative :=
                new_relational inverse
                  (mul (lhs relation) c) (mul (rhs relation) c) false in
              let ans_if_zero :=
                new_relational (func relation) (Integer 0) (Integer 0) true in
              ret (Cases
                     (dict.setitem
                        (dict.setitem
                           (dict.setitem dict.empty positive_interval ans_if_positive)
                           negative_interval ans_if_negative)
                        zeros ans_if_zero))
          end
      end
  end.

Definition _both_sides_pow_ineq (relation : Relation) (argument : option Expr)
    (interval : option SymSet) (variable : option Expr) : M (Result Expr SymSet) :=
  let reciprocal (cls : Kind) : Basic Expr :=
    new_relational cls (truediv (Integer 1) (lhs relation))
                       (truediv (Integer 1) (rhs relation)) false in
  if decide (argument = Some (Integer (-1))) then
    match interval with
    | None =>
        (* Method 1: global assumptions *)
        match variable with
        | None => raise TypeError
        | Some _ =>
            pp <- py_and (provably_positive (lhs relation)) (provably_positive (rhs relation)) ;;
            if pp then ret (Single (reciprocal (func relation)))
            else
              pn <- py_and (provably_positive (lhs relation)) (provably_negative (rhs relation)) ;;
              if pn then ret (Single (reciprocal (func relation)))
              else
                np <- py_and (provably_negative (lhs relation)) (provably_positive (rhs relation)) ;;
                if np then ret (Single (reciprocal (func relation)))
                else
                  nn <- py_and (provably_negative (lhs relation)) (provably_negative (rhs relation)) ;;
                  if nn then
                    inverse <- getitem _inverse_relations (func relation) ;;
                    ret (Single (reciprocal inverse))
                  else if decide (lhs relation = Integer 0) then raise ZeroDivisionError
                  else if decide (rhs relation = Integer 0) then raise ZeroDivisionError
                  else raise ValueError
        end
    | Some domain =>
        (* Method 2: solveset *)
        lhs_positive_interval <-
          ask_solve (new_relational Gt (lhs relation) (Integer 0) true) variable domain ;;
        rhs_positive_interval <-
          ask_solve (new_relational Gt (rhs relation) (Integer 0) true) variable domain ;;
        lhs_negative_interval <-
          ask_solve (new_relational Lt (lhs relation) (Integer 0) true) variable domain ;;
        rhs_negative_interval <-
          ask_solve (new_relational Lt (rhs relation) (Integer 0) true) variable domain ;;
        if decide (lhs relation = Integer 0) then raise ZeroDivisionError
        else if decide (rhs relation = Integer 0) then raise ZeroDivisionError
        else
          let pp_interval := intersect lhs_positive_interval rhs_positive_interval in
          let nn_interval := intersect lhs_negative_interval rhs_negative_interval in
          inverse <- getitem _inverse_relations (func relation) ;;
          let eqsigns := reciprocal inverse in
          let pn_interval := intersect lhs_positive_interval rhs_negative_interval in
          let np_interval := intersect lhs_negative_interval rhs_positive_interval in
          let difsigns := reciprocal (func relation) in
          let result0 := dict.empty in
          let result1 :=
            if decide (nn_interval <> EmptySet)
            then dict.setitem result0 nn_interval eqsigns else result0 in
          let result2 :=
            if decide (pp_interval <> EmptySet)
            then dict.setitem result1 pp_interval eqsigns else result1 in
          let result3 :=
            if decide (pn_interval <> EmptySet)
            then dict.setitem result2 pn_interval difsigns else result2 in
          let result4 :=
            if decide (np_interval <> EmptySet)
            then dict.setitem result3 np_interval difsigns else result3 in
          ret (Cases result4)
    end
  else raise NotImplementedError.

Definition both_sides (relation : Relation) (function : Function)
    (argument : option Expr) (interval : option SymSet) (variable : option Expr)
  : M (Result Expr SymSet) :=
  if decide (func relation = Eq) then
    l <- apply function [Some (lhs relation); argument] ;;
    r <- apply function [Some (rhs relation); argument] ;;
    ret (Single (new_relational Eq l r true))
  else if decide (function = Add) then
    _both_sides_add_ineq relation argument
  else if decide (function = Mul) then
    _both_sides_mul_ineq relation argument interval variable
  else if decide (function = Pow) then
    _both_sides_pow_ineq relation argument interval variable
  else if decide (function ∈ [factor; simplify; collect; expand; together; apart]) then
    l <- apply function [Some (lhs relation)] ;;
    r <- apply function [Some (rhs relation)] ;;
    ret (Single (new_relational (func relation) l r false))
  else raise NotImplementedError.

End Engine.

(** ** Names for the parts of an interval-mode result of [_both_sides_mul_ineq]

    The local variables of the [else] branch, as functions of the inputs. *)

Section MulIntervalParts.

Context {Expr SymSet : Type} `{!SymPy Expr SymSet}.

Definition positive_interval (c : Expr) (variable : option Expr) (domain : SymSet) : SymSet :=
  solveset (new_relational Gt c (Integer 0) true) variable domain.

Definition negative_interval (c : Expr) (variable : option Expr) (domain : SymSet) : SymSet :=
  solveset (new_relational Lt c (Integer 0) true) variable domain.

Definition zeros (c : Expr) (variable : option Expr) (domain : SymSet) : SymSet :=
  solveset (Ex c) variable domain.

Definition ans_if_positive (relation : Relational Expr) (c : Expr) : Basic Expr :=
  new_relational (func relation) (mul (lhs relation) c) (mul (rhs relation) c) false.

Definition ans_if_negative (inverse : Kind) (relation : Relational Expr) (c : Expr) : Basic Expr :=
  new_relational inverse (mul (lhs relation) c) (mul (rhs relation) c) false.

Definition ans_if_zero (relation : Relational Expr) : Basic Expr :=
  new_relational (func relation) (Integer 0) (Integer 0) true.

End MulIntervalParts.

(** ** sympy_equation_tools.py: the equations-only version of [both_sides] *)

Module sympy_equation_tools.

Section Equations.

Context {Expr SymSet : Type} `{!SymPy Expr SymSet}.

Definition both_sides (equation : Relational Expr) (function : Function)
    (argument : option Expr) : Py Expr SymSet (Result Expr SymSet) :=
  l <- apply function [Some (lhs equation); argument] ;;
  r <- apply function [Some (rhs equation); argument] ;;
  ret (Single (new_relational Eq l r true)).

End Equations.

End sympy_equation_tools.

(** ** A test double for SymPy

    Enough of SymPy to run the functions above on the examples of their
    docstrings: integers, real symbols with an optional sign assumption, sums,
    products and integer powers; signs computed from the assumptions; a
    relational decided when both sides are integers, when both sides are the
    same expression, or when one side has a known sign and the other is 0;
    [solveset] answering for a decided condition and for an expression of
    known sign, and returning a [ConditionSet] otherwise. *)

Module Double.

Local Open Scope Z_scope.

Inductive assumptions : Set := Real | Positive | Negative.

Inductive expr : Set :=
| Int (z : Z)
| Symbol (name : string) (a : assumptions)
| Sum (a b : expr)
| Product (a b : expr)
| Power (base : expr) (exponent : Z).

#[global] Instance assumptions_eq_dec : EqDecision assumptions.
Proof. solve_decision. Defined.

#[global] Instance expr_eq_dec : EqDecision expr.
Proof. solve_decision. Defined.

Inductive sset : Set :=
| Empty
| Interval (a b : Z)
| ConditionSet (symbol : option expr) (condition : Basic expr) (base : sset)
| Intersection (a b : sset).

#[global] Instance sset_eq_dec : EqDecision sset.
Proof. solve_decision. Defined.

Inductive sign : Set := Plus | Zero | Minus.

#[global] Instance sign_eq_dec : EqDecision sign.
Proof. solve_decision. Defined.

Definition sign_Z (z : Z) : sign :=
  if (0 <? z)%Z then Plus else if (z <? 0)%Z then Minus else Zero.

Definition sign_mul (s t : sign) : sign :=
  match s, t with
  | Zero, _ | _, Zero => Zero
  | Plus, Plus | Minus, Minus => Plus
  | _, _ => Minus
  end.

Fixpoint sign_of (e : expr) : option sign :=
  match e with
  | Int z => Some (sign_Z z)
  | Symbol _ Positive => Some Plus
  | Symbol _ Negative => Some Minus
  | Symbol _ Real => None
  | Sum a b =>
      match sign_of a, sign_of b with
      | Some Plus, Some Plus | Some Plus, Some Zero | Some Zero, Some Plus => Some Plus
      | Some Minus, Some Minus | Some Minus, Some Zero | Some Zero, Some Minus => Some Minus
      | Some Zero, Some Zero => Some Zero
      | _, _ => None
      end
  | Product a b =>
      match sign_of a, sign_of b with
      | Some s, Some t => Some (sign_mul s t)
      | _, _ => None
      end
  | Power b n =>
      match sign_of b with
      | Some Plus => Some Plus
      | Some Minus => Some (if Z.even n then Plus else Minus)
      | _ => None
      end
  end.

Definition is_sign (s : sign) (e : expr) : option bool :=
  match sign_of e with
  | Some t => Some (bool_decide (t = s))
  | None => None
  end.

(** Arithmetic folds integer operands and the neutral and absorbing
    elements, as SymPy's automatic evaluation does. *)
Definition add (a b : expr) : expr :=
  match a, b with
  | Int x, Int y => Int (x + y)
  | Int 0, _ => b
  | _, Int 0 => a
  | _, _ => Sum a b
  end.

Definition mul (a b : expr) : expr :=
  match a, b with
  | Int x, Int y => Int (x * y)
  | Int 0, _ | _, Int 0 => Int 0
  | Int 1, _ => b
  | _, Int 1 => a
  | _, _ => Product a b
  end.

Definition pow (b : expr) (n : Z) : expr :=
  if (n =? 0)%Z then Int 1
  else if (n =? 1)%Z then b
  else match b with
       | Power c m => Power c (m * n)
       | _ => Power b n
       end.

Definition neg (a : expr) : expr := mul (Int (-1)) a.
Definition sub (a b : expr) : expr := add a (neg b).
Definition truediv (a b : expr) : expr := mul a (pow b (-1)).

Definition compare_Z (cls : Kind) (x y : Z) : bool :=
  match cls with
  | Eq => (x =? y)%Z
  | Ne => negb (x =? y)%Z
  | Ge => (y <=? x)%Z
  | Le => (x <=? y)%Z
  | Gt => (y <? x)%Z
  | Lt => (x <? y)%Z
  end.

Definition Z_sign (s : sign) : Z :=
  match s with Plus => 1 | Zero => 0 | Minus => -1 end.

Definition fuzzy_relation (cls : Kind) (l r : expr) : option bool :=
  match l, r with
  | Int x, Int y => Some (compare_Z cls x y)
  | _, _ =>
      if decide (l = r) then Some (compare_Z cls 0 0)
      else match r, sign_of l with
           | Int 0, Some s => Some (compare_Z cls (Z_sign s) 0)
           | _, _ => None
           end
  end.

Definition solveset (f : Basic expr) (symbol : option expr) (domain : sset) : sset :=
  match f with
  | BooleanTrue => domain
  | BooleanFalse => Empty
  | Ex e =>
      match sign_of e with
      | Some Zero => domain
      | Some _ => Empty
      | None => ConditionSet symbol f domain
      end
  | Rel _ => ConditionSet symbol f domain
  end.

Definition intersect (a b : sset) : sset :=
  match a, b with
  | Empty, _ | _, Empty => Empty
  | _, _ => if decide (a = b) then a else Intersection a b
  end.

Definition is_Atom (e : expr) : bool :=
  match e with Int _ | Symbol _ _ => true | _ => false end.

(** Calls: the arithmetic classes on two expressions, [Pow] with an integer
    exponent, and the rewriting functions on atoms, which they return
    unchanged.  [collect] has a second required parameter.  Anything else is
    outside the double. *)
Definition call (function : Function) (args : list (option expr)) : Exception + expr :=
  match function, args with
  | Add, [Some a; Some b] => inr (add a b)
  | Mul, [Some a; Some b] => inr (mul a b)
  | Pow, [Some a; Some (Int n)] => inr (pow a n)
  | collect, [_] => inl TypeError
  | collect, [Some e; Some _] =>
      if is_Atom e then inr e else inl NotImplementedError
  | (simplify | expand | together | apart), ([Some e] | [Some e; None]) =>
      if is_Atom e then inr e else inl NotImplementedError
  | factor, [Some e] =>
      if is_Atom e then inr e else inl NotImplementedError
  | _, _ => inl NotImplementedError
  end.

#[global] Instance sympy : SymPy expr sset :=
  Build_SymPy expr sset expr_eq_dec sset_eq_dec
    Int add sub mul truediv neg
    (is_sign Plus) (is_sign Minus)
    fuzzy_relation call solveset intersect Empty.

(** The symbols of the docstrings: [x = symbols('x', real=True)] and
    [a = symbols('a', positive=True)]. *)
Definition x : expr := Symbol "x" Real.
Definition a : expr := Symbol "a" Positive.

(** [symbols('x', positive=True)], for the examples that need [x] and
    [x**2] provably positive. *)
Definition x_positive : expr := Symbol "x" Positive.

(** Two symbols declared negative, and a relation of the docstrings:
    [Ge(x + 1, x**2, evaluate=False)]. *)
Definition x_negative : expr := Symbol "x" Negative.
Definition y_negative : expr := Symbol "y" Negative.
Definition docstring_inequality : Relational expr :=
  mkRelational Ge (add x (Int 1)) (pow x 2).

End Double.

(** ** Names for the parts of an interval-mode result of [_both_sides_pow_ineq]

    The local variables of "Method 2", as functions of the inputs. *)

Section PowIntervalParts.

Context {Expr SymSet : Type} `{!SymPy Expr SymSet}.

Definition lhs_positive_interval (relation : Relational Expr)
    (variable : option Expr) (domain : SymSet) : SymSet :=
  solveset (new_relational Gt (lhs relation) (Integer 0) true) variable domain.

Definition rhs_positive_interval (relation : Relational Expr)
    (variable : option Expr) (domain : SymSet) : SymSet :=
  solveset (new_relational Gt (rhs relation) (Integer 0) true) variable domain.

Definition lhs_negative_interval (relation : Relational Expr)
    (variable : option Expr) (domain : SymSet) : SymSet :=
  solveset (new_relational Lt (lhs relation) (Integer 0) true) variable domain.

Definition rhs_negative_interval (relation : Relational Expr)
    (variable : option Expr) (domain : SymSet) : SymSet :=
  solveset (new_relational Lt (rhs relation) (Integer 0) true) variable domain.

Definition pp_interval (relation : Relational Expr)
    (variable : option Expr) (domain : SymSet) : SymSet :=
  intersect (lhs_positive_interval relation variable domain)
            (rhs_positive_interval relation variable domain).

Definition nn_interval (relation : Relational Expr)
    (variable : option Expr) (domain : SymSet) : SymSet :=
  intersect (lhs_negative_interval relation variable domain)
            (rhs_negative_interval relation variable domain).

Definition pn_interval (relation : Relational Expr)
    (variable : option Expr) (domain : SymSet) : SymSet :=
  intersect (lhs_positive_interval relation variable domain)
            (rhs_negative_interval relation variable domain).

Definition np_interval (relation : Relational Expr)
    (variable : option Expr) (domain : SymSet) : SymSet :=
  intersect (lhs_negative_interval relation variable domain)
            (rhs_positive_interval relation variable domain).

(** [cls(1/lhs, 1/rhs, evaluate=False)]: [eqsigns] at the inverse kind,
    [difsigns] at the kind of the relation. *)
Definition reciprocal_relation (cls : Kind) (relation : Relational Expr) : Basic Expr :=
  new_relational cls (truediv (Integer 1) (lhs relation))
                     (truediv (Integer 1) (rhs relation)) false.

(** [if k != EmptySet(): result[k] = v] *)
Definition store_nonempty (result : dict.t SymSet (Basic Expr)) (k : SymSet)
    (v : Basic Expr) : dict.t SymSet (Basic Expr) :=
  if decide (k <> EmptySet) then dict.setitem result k v else result.

End PowIntervalParts.

(** ** Reading a result and a log *)

Section Readings.

Context {Expr SymSet : Type}.

(** The relationals (or Booleans) a result holds: the single one, or the
    values of the dictionary. *)
Definition answers (r : Result Expr SymSet) : list (Basic Expr) :=
  match r with
  | Single b => [b]
  | Cases d => snd <$> d
  end.

(** An answer keeps the direction of [relation] up to inversion: it is a
    relational of the kind of [relation] or of the kind the table gives for
    it, or a Boolean atom. *)
Definition direction_kept (relation : Relational Expr) (b : Basic Expr) : Prop :=
  match b with
  | Rel r =>
      func r = func relation \/
      dict.get _inverse_relations (func relation) = Some (func r)
  | BooleanTrue | BooleanFalse => True
  | Ex _ => False
  end.

Definition is_sign_query (q : Query Expr SymSet) : bool :=
  match q with
  | ask_positive _ | ask_negative _ => true
  | ask_solveset _ _ _ => false
  end.

(** A [solveset] query for [variable] over [domain]. *)
Definition solves_over (variable : option Expr) (domain : SymSet)
    (q : Query Expr SymSet) : Prop :=
  exists f, q = ask_solveset f variable domain.

End Readings.

(** * Properties *)

(** ** Dictionaries: get after set, and the keys *)

Section DictFacts.

Context {K V : Type} `{EqDecision K}.

Implicit Types (d : dict.t K V) (k : K) (v : V).

Lemma dict_get_setitem d k v k' :
  dict.get (dict.setitem d k v) k' =
  if decide (k = k') then Some v else dict.get d k'.
Proof.
  induction d as [|[k0 v0] d IH]; simpl.
  - reflexivity.
  - destruct (decide (k0 = k)) as [->|Hne]; simpl.
    + destruct (decide (k = k')); reflexivity.
    + rewrite IH. destruct (decide (k0 = k')) as [->|]; [|reflexivity].
      destruct (decide (k = k')); congruence.
Qed.

Lemma dict_get_setitem_eq d k v : dict.get (dict.setitem d k v) k = Some v.
Proof. rewrite dict_get_setitem. destruct (decide (k = k)); congruence. Qed.

Lemma dict_get_setitem_ne d k v k' :
  k <> k' -> dict.get (dict.setitem d k v) k' = dict.get d k'.
Proof. intros Hne. rewrite dict_get_setitem. destruct (decide (k = k')); congruence. Qed.

Lemma dict_keys_setitem d k v k' :
  k' ∈ dict.keys (dict.setitem d k v) <-> k' = k \/ k' ∈ dict.keys d.
Proof.
  unfold dict.keys. induction d as [|[k0 v0] d IH]; simpl.
  - rewrite list_elem_of_singleton, elem_of_nil. tauto.
  - destruct (decide (k0 = k)) as [->|Hne]; simpl; rewrite !elem_of_cons.
    + tauto.
    + rewrite IH. tauto.
Qed.

Lemma dict_keys_setitem_NoDup d k v :
  NoDup (dict.keys d) -> NoDup (dict.keys (dict.setitem d k v)).
Proof.
  unfold dict.keys. induction d as [|[k0 v0] d IH]; simpl; intros Hd.
  - apply NoDup_singleton.
  - apply NoDup_cons in Hd as [Hk0 Hd].
    destruct (decide (k0 = k)) as [->|Hne]; simpl; apply NoDup_cons.
    + split; assumption.
    + split; [|auto].
      intros Hin. apply (dict_keys_setitem d k v k0) in Hin as [?|?]; [congruence|contradiction].
Qed.

(** An entry of a dictionary is what [get] returns for its key, as long as
    the keys are distinct. *)
Lemma dict_entry_get d k v :
  NoDup (dict.keys d) -> (k, v) ∈ d -> dict.get d k = Some v.
Proof.
  unfold dict.keys. induction d as [|[k0 v0] d IH]; simpl; intros Hd Hin.
  - apply elem_of_nil in Hin as [].
  - apply NoDup_cons in Hd as [Hk0 Hd].
    apply elem_of_cons in Hin as [Heq|Hin].
    + inversion Heq; subst. destruct (decide (k0 = k0)); congruence.
    + destruct (decide (k0 = k)) as [->|]; [|auto].
      exfalso. apply Hk0. apply list_elem_of_fmap. exists (k, v). auto.
Qed.

End DictFacts.

(** ** The table of inverse relations *)

(** The table is defined on the four inequality kinds, and never maps a kind
    to itself. *)
Lemma inverse_relations_lookup (cls : Kind) :
  cls ∈ [Ge; Le; Gt; Lt] ->
  exists inverse,
    dict.get _inverse_relations cls = Some inverse /\
    dict.get _inverse_relations inverse = Some cls /\
    inverse <> cls.
Proof.
  intros Hin. decompose_list_elem_of; subst;
    [exists Le | exists Ge | exists Lt | exists Gt]; repeat split; discriminate.
Qed.

(** C9. The direction table is an involution: looking up the inverse of the
    inverse of any of [Ge], [Le], [Gt], [Lt] gives the kind back. *)
Theorem inverse_relations_involution (cls : Kind) :
  cls ∈ [Ge; Le; Gt; Lt] ->
  exists inverse,
    dict.get _inverse_relations cls = Some inverse /\
    dict.get _inverse_relations inverse = Some cls.
Proof.
  intros Hin. destruct (inverse_relations_lookup cls Hin) as (inverse & H1 & H2 & _).
  exists inverse. split; assumption.
Qed.

(** C9 at [Ge]. *)
Lemma inverse_relations_involution_Ge :
  exists inverse,
    dict.get _inverse_relations Ge = Some inverse /\
    dict.get _inverse_relations inverse = Some Ge.
Proof. apply (inverse_relations_involution Ge). repeat constructor. Defined.

Section EngineFacts.

Context {Expr SymSet : Type} `{!SymPy Expr SymSet}.

Implicit Types (relation : Relational Expr) (argument variable : option Expr)
  (interval : option SymSet) (domain : SymSet) (c v : Expr).

(** ** The engine over any implementation of SymPy *)

(** What the two sign queries return, and what they log. *)
Lemma provably_positive_true e :
  is_positive e = Some true ->
  provably_positive e = ([ask_positive e], Return true).
Proof. intros He. unfold provably_positive. rewrite bool_decide_eq_true_2; done. Qed.

Lemma provably_positive_false e :
  is_positive e <> Some true ->
  provably_positive e = ([ask_positive e], Return false).
Proof. intros He. unfold provably_positive. rewrite bool_decide_eq_false_2; done. Qed.

Lemma provably_negative_true e :
  is_negative e = Some true ->
  provably_negative e = ([ask_negative e], Return true).
Proof. intros He. unfold provably_negative. rewrite bool_decide_eq_true_2; done. Qed.

Lemma provably_negative_false e :
  is_negative e <> Some true ->
  provably_negative e = ([ask_negative e], Return false).
Proof. intros He. unfold provably_negative. rewrite bool_decide_eq_false_2; done. Qed.

(** A lookup that succeeds in [_inverse_relations] raises nothing and asks
    nothing. *)
Lemma getitem_inverse cls inverse :
  dict.get _inverse_relations cls = Some inverse ->
  getitem (E := Expr) (S := SymSet) _inverse_relations cls = ret inverse.
Proof. intros Hget. unfold getitem. rewrite Hget. reflexivity. Qed.

(** C1. Global-assumption mode of the reciprocal, both sides provably
    positive: the docstring gives [x > y] implies [1/x < 1/y] for [x, y > 0],
    and the interval branch inverts on the region where both sides are
    positive.  The first branch of the global chain does not: it asks for the
    two signs and returns the relation of the SAME kind on [1/lhs] and
    [1/rhs].  (A variable is supplied here; without one the call stops
    earlier, with a [TypeError].) *)
Theorem reciprocal_both_positive_keeps_kind relation v :
  is_positive (lhs relation) = Some true ->
  is_positive (rhs relation) = Some true ->
  _both_sides_pow_ineq relation (Some (Integer (-1))) None (Some v) =
    ([ask_positive (lhs relation); ask_positive (rhs relation)],
     Return (Single (Rel (mkRelational (func relation)
                            (truediv (Integer 1) (lhs relation))
                            (truediv (Integer 1) (rhs relation)))))).
Proof.
  intros Hl Hr. unfold _both_sides_pow_ineq, py_and.
  rewrite decide_True by reflexivity.
  rewrite (provably_positive_true _ Hl), (provably_positive_true _ Hr).
  reflexivity.
Qed.

(** C3. Global-assumption mode of the reciprocal (no interval) with no
    variable: the function raises [TypeError] before it looks at the
    relation, instead of answering from the zero check and the sign oracle.
    The message of that error is the one for "interval given, variable
    missing". *)
Theorem reciprocal_global_needs_variable relation :
  _both_sides_pow_ineq relation (Some (Integer (-1))) None None =
    ([], Raise TypeError).
Proof.
  unfold _both_sides_pow_ineq. rewrite decide_True by reflexivity. reflexivity.
Qed.

(** C6. An interval without a variable: multiplication raises [TypeError];
    the reciprocal never does, whatever the relation and the argument, because
    its only check of [variable] sits in the branch without an interval.  It
    hands [variable = None] to [solveset] and goes on. *)
Theorem reciprocal_interval_never_asks_for_variable relation argument domain :
  _both_sides_mul_ineq relation argument (Some domain) None = ([], Raise TypeError) /\
  result (_both_sides_pow_ineq relation argument (Some domain) None) <> Raise TypeError.
Proof.
  split; [reflexivity|].
  unfold _both_sides_pow_ineq, getitem, result.
  destruct (decide (argument = Some (Integer (-1)))); [|discriminate].
  destruct (decide (lhs relation = Integer 0)); [discriminate|].
  destruct (decide (rhs relation = Integer 0)); [discriminate|].
  destruct (dict.get _inverse_relations (func relation)); discriminate.
Qed.


(** Interval mode of the multiplication on an inequality: three [solveset]
    queries, then the dictionary literal with its three stores. *)
Lemma mul_interval_cases relation c domain v inverse :
  dict.get _inverse_relations (func relation) = Some inverse ->
  _both_sides_mul_ineq relation (Some c) (Some domain) (Some v) =
    ([ask_solveset (new_relational Gt c (Integer 0) true) (Some v) domain;
      ask_solveset (new_relational Lt c (Integer 0) true) (Some v) domain;
      ask_solveset (Ex c) (Some v) domain],
     Return (Cases
       (dict.setitem
          (dict.setitem
             (dict.setitem dict.empty
                (positive_interval c (Some v) domain) (ans_if_positive relation c))
             (negative_interval c (Some v) domain) (ans_if_negative inverse relation c))
          (zeros c (Some v) domain) (ans_if_zero relation)))).
Proof.
  intros Hget. unfold _both_sides_mul_ineq, ask_solve.
  rewrite (getitem_inverse _ _ Hget). reflexivity.
Qed.

(** C10. Interval mode of the multiplication keys the dictionary by the
    three computed subsets themselves.  The keys of the result are those
    subsets, each once; every entry is the one [get] returns for its key;
    the zero subset always maps to the zero answer, the negative subset to
    the negative answer unless it equals the zero subset, and the positive
    subset to the positive answer unless it equals one of the other two, the
    later store winning (zero over negative over positive).  An overwritten
    answer is not in the result. *)
Theorem mul_interval_key_collisions relation c domain v inverse :
  dict.get _inverse_relations (func relation) = Some inverse ->
  let kp := positive_interval c (Some v) domain in
  let kn := negative_interval c (Some v) domain in
  let kz := zeros c (Some v) domain in
  exists d,
    result (_both_sides_mul_ineq relation (Some c) (Some domain) (Some v)) =
      Return (Cases d) /\
    NoDup (dict.keys d) /\
    (forall k, k ∈ dict.keys d <-> k = kp \/ k = kn \/ k = kz) /\
    (forall k b, (k, b) ∈ d -> dict.get d k = Some b) /\
    dict.get d kz = Some (ans_if_zero relation) /\
    dict.get d kn =
      Some (if decide (kn = kz) then ans_if_zero relation
            else ans_if_negative inverse relation c) /\
    dict.get d kp =
      Some (if decide (kp = kz) then ans_if_zero relation
            else if decide (kp = kn) then ans_if_negative inverse relation c
            else ans_if_positive relation c).
Proof.
  intros Hget kp kn kz. rewrite (mul_interval_cases _ _ _ _ _ Hget).
  fold kp kn kz. eexists. split; [reflexivity|].
  assert (NoDup (dict.keys
            (dict.setitem
               (dict.setitem
                  (dict.setitem dict.empty kp (ans_if_positive relation c))
                  kn (ans_if_negative inverse relation c))
               kz (ans_if_zero relation)))) as Hkeys
    by (do 3 apply dict_keys_setitem_NoDup; apply NoDup_nil_2).
  split; [exact Hkeys|]. split; [|split; [|split; [|split]]].
  - intros k. rewrite !dict_keys_setitem. unfold dict.keys, dict.empty.
    rewrite fmap_nil, elem_of_nil. tauto.
  - intros k b Hin. apply dict_entry_get; assumption.
  - apply dict_get_setitem_eq.
  - rewrite dict_get_setitem. destruct (decide (kz = kn)), (decide (kn = kz)); try congruence.
    apply dict_get_setitem_eq.
  - rewrite !dict_get_setitem.
    destruct (decide (kz = kp)), (decide (kp = kz)); try congruence.
    destruct (decide (kn = kp)), (decide (kp = kn)); try congruence.
    destruct (decide (kp = kp)); congruence.
Qed.

(** C2, as amended.  For an inequality, multiplying by the literal zero
    gives [relation.func(0, 0)]: the relational of the ORIGINAL kind on
    [(0, 0)], built by the evaluating constructor, and not [Eq(0, 0)].  This
    is the result in global-assumption mode (the oracle calling the literal
    zero neither positive nor negative), and the value stored under the zero
    subset in interval mode. *)
Theorem mul_zero_keeps_kind relation variable domain v :
  func relation ∈ [Ge; Le; Gt; Lt] ->
  is_positive (Integer 0) <> Some true ->
  is_negative (Integer 0) <> Some true ->
  _both_sides_mul_ineq relation (Some (Integer 0)) None variable =
    ([ask_positive (Integer 0); ask_negative (Integer 0)],
     Return (Single (new_relational (func relation) (Integer 0) (Integer 0) true))) /\
  exists d,
    result (_both_sides_mul_ineq relation (Some (Integer 0)) (Some domain) (Some v)) =
      Return (Cases d) /\
    dict.get d (zeros (Integer 0) (Some v) domain) =
      Some (new_relational (func relation) (Integer 0) (Integer 0) true).
Proof.
  intros Hin Hpos Hneg. split.
  - unfold _both_sides_mul_ineq.
    rewrite (provably_positive_false _ Hpos), (provably_negative_false _ Hneg).
    cbn. rewrite decide_True by reflexivity. reflexivity.
  - destruct (inverse_relations_lookup _ Hin) as (inverse & Hget & _).
    rewrite (mul_interval_cases _ _ _ _ _ Hget).
    eexists. split; [reflexivity|]. apply dict_get_setitem_eq.
Qed.

(** C4. Interval mode of the multiplication does not leave out an empty
    subset: when the zero subset is the empty set, the dictionary returned
    has the empty set as a key, mapped to the zero answer.  (The reciprocal
    tests each region against [EmptySet()] before storing it; the
    multiplication builds the dictionary literal with no such test.) *)
Theorem mul_interval_keeps_empty_subset relation c domain v :
  func relation ∈ [Ge; Le; Gt; Lt] ->
  zeros c (Some v) domain = EmptySet ->
  exists d,
    result (_both_sides_mul_ineq relation (Some c) (Some domain) (Some v)) =
      Return (Cases d) /\
    dict.get d EmptySet = Some (ans_if_zero relation).
Proof.
  intros Hin Hempty.
  destruct (inverse_relations_lookup _ Hin) as (inverse & Hget & _).
  rewrite (mul_interval_cases _ _ _ _ _ Hget), Hempty.
  eexists. split; [reflexivity|]. apply dict_get_setitem_eq.
Qed.

(** C5, as amended.  A relation with a side that is the literal zero: the
    reciprocal raises [ZeroDivisionError] in interval mode, and in
    global-assumption mode when a variable is supplied (the oracle calling
    the literal zero neither positive nor negative).  The zero check comes
    AFTER the queries: in interval mode the four [solveset] queries are made
    first, and in global-assumption mode the sign oracle is asked about
    [lhs] first. *)
Theorem reciprocal_zero_side relation domain variable v :
  lhs relation = Integer 0 \/ rhs relation = Integer 0 ->
  is_positive (Integer 0) <> Some true ->
  is_negative (Integer 0) <> Some true ->
  _both_sides_pow_ineq relation (Some (Integer (-1))) (Some domain) variable =
    ([ask_solveset (new_relational Gt (lhs relation) (Integer 0) true) variable domain;
      ask_solveset (new_relational Gt (rhs relation) (Integer 0) true) variable domain;
      ask_solveset (new_relational Lt (lhs relation) (Integer 0) true) variable domain;
      ask_solveset (new_relational Lt (rhs relation) (Integer 0) true) variable domain],
     Raise ZeroDivisionError) /\
  result (_both_sides_pow_ineq relation (Some (Integer (-1))) None (Some v)) =
    Raise ZeroDivisionError /\
  exists rest,
    queries (_both_sides_pow_ineq relation (Some (Integer (-1))) None (Some v)) =
      ask_positive (lhs relation) :: rest.
Proof.
  intros Hzero Hpos Hneg. split; [|split].
  - unfold _both_sides_pow_ineq, ask_solve.
    rewrite decide_True by reflexivity.
    destruct (decide (lhs relation = Integer 0)); [reflexivity|].
    destruct (decide (rhs relation = Integer 0)); [reflexivity|].
    destruct Hzero; contradiction.
  - unfold _both_sides_pow_ineq, py_and, provably_positive, provably_negative, result.
    rewrite decide_True by reflexivity.
    destruct Hzero as [Hz|Hz]; rewrite Hz.
    + rewrite !(bool_decide_eq_false_2 _ Hpos), !(bool_decide_eq_false_2 _ Hneg).
      cbn. rewrite decide_True by reflexivity. reflexivity.
    + rewrite !(bool_decide_eq_false_2 _ Hpos), !(bool_decide_eq_false_2 _ Hneg).
      destruct (bool_decide (is_positive (lhs relation) = Some true)),
               (bool_decide (is_negative (lhs relation) = Some true)); cbn;
        destruct (decide (lhs relation = Integer 0)); try reflexivity;
        rewrite decide_True by reflexivity; reflexivity.
  - unfold _both_sides_pow_ineq, py_and, provably_positive, provably_negative, queries, getitem.
    rewrite decide_True by reflexivity.
    destruct (bool_decide (is_positive (lhs relation) = Some true)),
             (bool_decide (is_positive (rhs relation) = Some true)),
             (bool_decide (is_negative (lhs relation) = Some true)),
             (bool_decide (is_negative (rhs relation) = Some true)); cbn;
      try (eexists; reflexivity);
      repeat (destruct (dict.get _ _) || destruct (decide _)); cbn; eexists; reflexivity.
Qed.

(** The first branch of [both_sides]: on kind [Eq] the function is called on
    each side with the argument, and [Eq] is built from the two results. *)
Lemma both_sides_Eq_branch relation function argument interval variable l r :
  func relation = Eq ->
  call function [Some (lhs relation); argument] = inr l ->
  call function [Some (rhs relation); argument] = inr r ->
  both_sides relation function argument interval variable =
    ([], Return (Single (new_relational Eq l r true))).
Proof.
  intros Hk Hl Hr. unfold both_sides, apply.
  rewrite decide_True by assumption. rewrite Hl, Hr. reflexivity.
Qed.

(** C7. On a relation of kind [Eq], for any function and optional argument,
    [both_sides] returns [Eq(function(lhs, argument), function(rhs, argument))]
    whatever the interval and the variable are, and asks neither the sign
    oracle nor [solveset] anything.  The equations-only [both_sides] of
    [sympy_equation_tools.py] returns the same. *)
Theorem both_sides_equality relation function argument interval variable l r :
  func relation = Eq ->
  call function [Some (lhs relation); argument] = inr l ->
  call function [Some (rhs relation); argument] = inr r ->
  both_sides relation function argument interval variable =
    ([], Return (Single (new_relational Eq l r true))) /\
  sympy_equation_tools.both_sides relation function argument =
    ([], Return (Single (new_relational Eq l r true))).
Proof.
  intros Hk Hl Hr. split.
  - apply both_sides_Eq_branch; assumption.
  - unfold sympy_equation_tools.both_sides, apply. rewrite Hl, Hr. reflexivity.
Qed.

(** C8, as amended.  For a function of the list [factor, simplify, collect,
    expand, together, apart]: on a relation of any kind other than [Eq],
    [both_sides] returns the unevaluated [relation.func(function(lhs),
    function(rhs))], with no query, whatever argument, interval and variable
    are; on a relation of kind [Eq] the equality branch is taken instead, and
    the result is [Eq(function(lhs, argument), function(rhs, argument))] from
    the evaluating constructor: the function is called with the argument
    ([None] when there is none), and the result is a Boolean when SymPy
    decides the equality. *)
Theorem both_sides_rewrite relation function argument interval variable :
  function ∈ [factor; simplify; collect; expand; together; apart] ->
  (func relation <> Eq ->
   forall l r,
     call function [Some (lhs relation)] = inr l ->
     call function [Some (rhs relation)] = inr r ->
     both_sides relation function argument interval variable =
       ([], Return (Single (Rel (mkRelational (func relation) l r))))) /\
  (func relation = Eq ->
   forall l r,
     call function [Some (lhs relation); argument] = inr l ->
     call function [Some (rhs relation); argument] = inr r ->
     both_sides relation function argument interval variable =
       ([], Return (Single (new_relational Eq l r true)))).
Proof.
  intros Hin. split.
  - intros Hk l r Hl Hr. unfold both_sides, apply.
    rewrite decide_False by assumption.
    rewrite (decide_True (P := function ∈ _)) by assumption.
    rewrite Hl, Hr.
    decompose_list_elem_of; subst; reflexivity.
  - intros Hk l r Hl Hr.
    apply both_sides_Eq_branch; assumption.
Qed.

End EngineFacts.

(** ** The functions run on the test double *)

Section OnTheDouble.

Import Double.
Local Open Scope Z_scope.

(** The docstring of [both_sides]: multiplying [x + 1 >= 0] by a positive
    [a] gives [a*(x + 1) >= 0]. *)
Example both_sides_docstring_mul :
  both_sides (mkRelational Ge (add x (Int 1)) (Int 0)) Mul (Some a) None None =
    ([ask_positive a],
     Return (Single (Rel (mkRelational Ge (Product (Sum x (Int 1)) a) (Int 0))))).
Proof. reflexivity. Qed.

(** C1 at [x >= x**2] with [x] positive: the result is [1/x >= x**(-2)],
    where the docstring's rule gives [1/x <= x**(-2)]. *)
Lemma reciprocal_both_positive_example :
  _both_sides_pow_ineq (mkRelational Ge x_positive (pow x_positive 2))
      (Some (Int (-1))) None (Some x_positive) =
    ([ask_positive x_positive; ask_positive (Power x_positive 2)],
     Return (Single (Rel (mkRelational Ge (Power x_positive (-1))
                                         (Power x_positive (-2)))))).
Proof.
  refine (reciprocal_both_positive_keeps_kind
            (mkRelational Ge x_positive (pow x_positive 2)) x_positive _ _);
    reflexivity.
Defined.

(** C2 fails at [x > 1] times [0]: the result is [0 > 0] evaluated, the
    Boolean false, which is neither what [Eq(0, 0)] evaluates to nor the
    unevaluated [Eq(0, 0)]. *)
Lemma mul_zero_strict_is_not_Eq :
  result (both_sides (mkRelational Gt x (Int 1)) Mul (Some (Int 0)) None None) =
    Return (Single BooleanFalse) /\
  result (both_sides (mkRelational Gt x (Int 1)) Mul (Some (Int 0)) None None) <>
    Return (Single (new_relational Eq (Int 0) (Int 0) true)) /\
  result (both_sides (mkRelational Gt x (Int 1)) Mul (Some (Int 0)) None None) <>
    Return (Single (new_relational Eq (Int 0) (Int 0) false)).
Proof. split; [reflexivity|]. split; discriminate. Qed.

(** C2 as amended, at [x > 1] times [0], without an interval and on
    [[-1, 1]]. *)
Lemma mul_zero_keeps_kind_example :
  _both_sides_mul_ineq (mkRelational Gt x (Int 1)) (Some (Int 0)) None None =
    ([ask_positive (Int 0); ask_negative (Int 0)], Return (Single BooleanFalse)) /\
  exists d,
    result (_both_sides_mul_ineq (mkRelational Gt x (Int 1)) (Some (Int 0))
              (Some (Interval (-1) 1)) (Some x)) = Return (Cases d) /\
    dict.get d (Interval (-1) 1) = Some BooleanFalse.
Proof.
  refine (mul_zero_keeps_kind (mkRelational Gt x (Int 1)) None (Interval (-1) 1) x _ _ _).
  - simpl. repeat constructor.
  - discriminate.
  - discriminate.
Defined.

(** C4 at [x + 1 >= 0] times a positive [a] on [[-1, 1]]: [a] has no zero,
    and the empty set is a key of the result. *)
Lemma mul_interval_keeps_empty_subset_example :
  exists d,
    result (_both_sides_mul_ineq (mkRelational Ge (add x (Int 1)) (Int 0)) (Some a)
              (Some (Interval (-1) 1)) (Some x)) = Return (Cases d) /\
    dict.get d Empty = Some BooleanTrue.
Proof.
  refine (mul_interval_keeps_empty_subset
            (mkRelational Ge (add x (Int 1)) (Int 0)) a (Interval (-1) 1) x _ _).
  - simpl. repeat constructor.
  - reflexivity.
Defined.

(** The whole result of that call: the negative and the zero subset are
    both empty and share one entry. *)
Example mul_interval_docstring_relation :
  both_sides (mkRelational Ge (add x (Int 1)) (Int 0)) Mul (Some a)
      (Some (Interval (-1) 1)) (Some x) =
    ([ask_solveset BooleanTrue (Some x) (Interval (-1) 1);
      ask_solveset BooleanFalse (Some x) (Interval (-1) 1);
      ask_solveset (Ex a) (Some x) (Interval (-1) 1)],
     Return (Cases
       [(Interval (-1) 1,
         Rel (mkRelational Ge (Product (Sum x (Int 1)) a) (Int 0)));
        (Empty, BooleanTrue)])).
Proof. reflexivity. Qed.

(** C5 fails at [x >= 0] on [[-1, 1]]: the error is raised after four
    [solveset] queries, not before any; without the interval, after four
    questions to the sign oracle. *)
Lemma reciprocal_zero_check_after_queries :
  both_sides (mkRelational Ge x (Int 0)) Pow (Some (Int (-1)))
      (Some (Interval (-1) 1)) (Some x) <>
    ([], Raise ZeroDivisionError) /\
  length (queries (both_sides (mkRelational Ge x (Int 0)) Pow (Some (Int (-1)))
                     (Some (Interval (-1) 1)) (Some x))) = 4%nat /\
  queries (both_sides (mkRelational Ge x (Int 0)) Pow (Some (Int (-1)))
             None (Some x)) =
    [ask_positive x; ask_positive x; ask_negative x; ask_negative x].
Proof. split; [discriminate|]. split; reflexivity. Qed.

(** C5 as amended, at [x >= 0]. *)
Lemma reciprocal_zero_side_example :
  _both_sides_pow_ineq (mkRelational Ge x (Int 0)) (Some (Int (-1)))
      (Some (Interval (-1) 1)) (Some x) =
    ([ask_solveset (Rel (mkRelational Gt x (Int 0))) (Some x) (Interval (-1) 1);
      ask_solveset BooleanFalse (Some x) (Interval (-1) 1);
      ask_solveset (Rel (mkRelational Lt x (Int 0))) (Some x) (Interval (-1) 1);
      ask_solveset BooleanFalse (Some x) (Interval (-1) 1)],
     Raise ZeroDivisionError) /\
  result (_both_sides_pow_ineq (mkRelational Ge x (Int 0)) (Some (Int (-1)))
            None (Some x)) = Raise ZeroDivisionError /\
  exists rest,
    queries (_both_sides_pow_ineq (mkRelational Ge x (Int 0)) (Some (Int (-1)))
               None (Some x)) = ask_positive x :: rest.
Proof.
  refine (reciprocal_zero_side (mkRelational Ge x (Int 0)) (Interval (-1) 1) (Some x) x
            _ _ _).
  - right. reflexivity.
  - discriminate.
  - discriminate.
Defined.

(** C7 at the docstring's [Eq(5*x + x**2, x + 5)] with [Add] and [-5*x]
    (the double does not collect terms), with an interval and no variable. *)
Lemma both_sides_equality_example :
  both_sides (mkRelational Eq (add (mul (Int 5) x) (pow x 2)) (add x (Int 5)))
      Add (Some (mul (Int (-5)) x)) (Some (Interval 0 1)) None =
    ([], Return (Single (Rel (mkRelational Eq
       (Sum (Sum (Product (Int 5) x) (Power x 2)) (Product (Int (-5)) x))
       (Sum (Sum x (Int 5)) (Product (Int (-5)) x)))))) /\
  sympy_equation_tools.both_sides
      (mkRelational Eq (add (mul (Int 5) x) (pow x 2)) (add x (Int 5)))
      Add (Some (mul (Int (-5)) x)) =
    ([], Return (Single (Rel (mkRelational Eq
       (Sum (Sum (Product (Int 5) x) (Power x 2)) (Product (Int (-5)) x))
       (Sum (Sum x (Int 5)) (Product (Int (-5)) x)))))).
Proof.
  refine (both_sides_equality
            (mkRelational Eq (add (mul (Int 5) x) (pow x 2)) (add x (Int 5)))
            Add (Some (mul (Int (-5)) x)) (Some (Interval 0 1)) None
            (Sum (Sum (Product (Int 5) x) (Power x 2)) (Product (Int (-5)) x))
            (Sum (Sum x (Int 5)) (Product (Int (-5)) x)) _ _ _);
    reflexivity.
Defined.

(** C8 fails whichever way [relation.kind(fn(lhs), fn(rhs))] is read.  With
    [expand], which returns the atom [x] as it is: on [Eq(x, x)] the result
    is not the unevaluated relational (it is the Boolean true), and on
    [x >= x] the result is not the evaluated relational (it stays a
    relational). *)
Lemma rewrite_is_not_uniform_over_kinds :
  call expand [Some x] = inr x /\
  result (both_sides (mkRelational Eq x x) expand None None None) <>
    Return (Single (new_relational Eq x x false)) /\
  result (both_sides (mkRelational Ge x x) expand None None None) <>
    Return (Single (new_relational Ge x x true)).
Proof. split; [reflexivity|]. split; discriminate. Qed.

(** C8 as amended, at [x >= 2] and at [Eq(x, x)] with [expand]. *)
Lemma both_sides_rewrite_example :
  both_sides (mkRelational Ge x (Int 2)) expand (Some a) (Some (Interval 0 1)) (Some x) =
    ([], Return (Single (Rel (mkRelational Ge x (Int 2))))) /\
  both_sides (mkRelational Eq x x) expand None None None =
    ([], Return (Single BooleanTrue)).
Proof.
  split.
  - refine (proj1 (both_sides_rewrite (mkRelational Ge x (Int 2)) expand (Some a)
                     (Some (Interval 0 1)) (Some x) _) _ x (Int 2) _ _);
      [repeat constructor | discriminate | reflexivity | reflexivity].
  - refine (proj2 (both_sides_rewrite (mkRelational Eq x x) expand None None None _)
              _ x x _ _);
      [repeat constructor | reflexivity | reflexivity | reflexivity].
Defined.

(** C10 at [x > 1] times [0] on [[-1, 1]]: the positive and the negative
    subset are both empty and collide; the entry of the empty set holds the
    negative answer [0 < 0], and the positive answer is gone. *)
Lemma mul_interval_key_collisions_example :
  exists d,
    result (_both_sides_mul_ineq (mkRelational Gt x (Int 1)) (Some (Int 0))
              (Some (Interval (-1) 1)) (Some x)) = Return (Cases d) /\
    NoDup (dict.keys d) /\
    (forall k, k ∈ dict.keys d <-> k = Empty \/ k = Empty \/ k = Interval (-1) 1) /\
    (forall k b, (k, b) ∈ d -> dict.get d k = Some b) /\
    dict.get d (Interval (-1) 1) = Some BooleanFalse /\
    dict.get d Empty = Some (Rel (mkRelational Lt (Int 0) (Int 0))) /\
    dict.get d Empty = Some (Rel (mkRelational Lt (Int 0) (Int 0))).
Proof.
  refine (mul_interval_key_collisions (mkRelational Gt x (Int 1)) (Int 0)
            (Interval (-1) 1) x Lt _).
  reflexivity.
Defined.

End OnTheDouble.

(** * More of the engine *)

Section DispatchFacts.

Context {Expr SymSet : Type} `{!SymPy Expr SymSet}.

Implicit Types (relation : Relational Expr) (argument variable : option Expr)
  (interval : option SymSet) (domain : SymSet) (c v : Expr).

(** X1. Adding to an inequality: for a relation of any kind but [Eq] and any
    argument, [both_sides] with [Add] returns the unevaluated relational of
    the same kind with the argument added to each side, asks nothing, and
    ignores interval and variable; with no argument it raises [TypeError]. *)
Theorem both_sides_add_shift relation c interval variable :
  func relation <> Eq ->
  both_sides relation Add (Some c) interval variable =
    ([], Return (Single (Rel (mkRelational (func relation)
                                (add (lhs relation) c) (add (rhs relation) c))))) /\
  both_sides relation Add None interval variable = ([], Raise TypeError).
Proof.
  intros Hk. split; unfold both_sides; rewrite decide_False by assumption;
    rewrite decide_True by reflexivity; reflexivity.
Qed.

(** X2. Multiplying by a provably positive argument, no interval: one
    question to the sign oracle, and the unevaluated relational of the same
    kind with both sides multiplied.  This holds for every kind, and whatever
    [is_negative] says of the argument: the positive test comes first. *)
Theorem mul_positive_keeps_kind relation c variable :
  is_positive c = Some true ->
  _both_sides_mul_ineq relation (Some c) None variable =
    ([ask_positive c],
     Return (Single (Rel (mkRelational (func relation)
                            (mul (lhs relation) c) (mul (rhs relation) c))))).
Proof.
  intros Hpos. unfold _both_sides_mul_ineq.
  rewrite (provably_positive_true _ Hpos). reflexivity.
Qed.

(** X3. Multiplying an inequality by an argument that is provably negative
    (and not provably positive), no interval: two questions, and the
    unevaluated relational of the INVERSE kind with both sides multiplied. *)
Theorem mul_negative_inverts_kind relation c variable inverse :
  dict.get _inverse_relations (func relation) = Some inverse ->
  is_positive c <> Some true ->
  is_negative c = Some true ->
  _both_sides_mul_ineq relation (Some c) None variable =
    ([ask_positive c; ask_negative c],
     Return (Single (Rel (mkRelational inverse
                            (mul (lhs relation) c) (mul (rhs relation) c))))).
Proof.
  intros Hget Hpos Hneg. unfold _both_sides_mul_ineq.
  rewrite (provably_positive_false _ Hpos), (provably_negative_true _ Hneg).
  cbn. rewrite (getitem_inverse _ _ Hget). reflexivity.
Qed.

(** X4. Multiplying by an argument of unknown sign that is not the literal
    zero, no interval: [ValueError], after both questions, for every kind of
    relation. *)
Theorem mul_unknown_sign_ValueError relation c variable :
  is_positive c <> Some true ->
  is_negative c <> Some true ->
  c <> Integer 0 ->
  _both_sides_mul_ineq relation (Some c) None variable =
    ([ask_positive c; ask_negative c], Raise ValueError).
Proof.
  intros Hpos Hneg Hz. unfold _both_sides_mul_ineq.
  rewrite (provably_positive_false _ Hpos), (provably_negative_false _ Hneg).
  cbn. rewrite decide_False by assumption. reflexivity.
Qed.

(** X5. A power other than [-1] on a relation that is not an equation:
    [NotImplementedError], with no question asked, whatever interval and
    variable are.  (On an equation the same call applies [Pow].) *)
Theorem both_sides_other_power relation argument interval variable :
  func relation <> Eq ->
  argument <> Some (Integer (-1)) ->
  both_sides relation Pow argument interval variable =
    ([], Raise NotImplementedError).
Proof.
  intros Hk Harg. unfold both_sides, _both_sides_pow_ineq.
  rewrite decide_False by assumption.
  rewrite (decide_False (P := Pow = Add)) by discriminate.
  rewrite (decide_False (P := Pow = Mul)) by discriminate.
  rewrite (decide_True (P := Pow = Pow)) by reflexivity.
  rewrite decide_False by assumption. reflexivity.
Qed.

(** X6. A callable the dispatcher does not know, on a relation that is not
    an equation: [NotImplementedError], the callable is never called and
    nothing is asked. *)
Theorem both_sides_unknown_function relation name argument interval variable :
  func relation <> Eq ->
  both_sides relation (Callable name) argument interval variable =
    ([], Raise NotImplementedError).
Proof.
  intros Hk. unfold both_sides.
  rewrite decide_False by assumption.
  rewrite (decide_False (P := Callable name = Add)) by discriminate.
  rewrite (decide_False (P := Callable name = Mul)) by discriminate.
  rewrite (decide_False (P := Callable name = Pow)) by discriminate.
  rewrite decide_False; [reflexivity|].
  intros Hin. decompose_list_elem_of; discriminate.
Qed.


(** X7. The reciprocal under global assumptions, both sides provably
    negative (and neither provably positive), a variable being supplied: the
    unevaluated relational of the INVERSE kind on [1/lhs] and [1/rhs]. *)
Theorem reciprocal_both_negative_inverts relation v inverse :
  dict.get _inverse_relations (func relation) = Some inverse ->
  is_positive (lhs relation) <> Some true ->
  is_positive (rhs relation) <> Some true ->
  is_negative (lhs relation) = Some true ->
  is_negative (rhs relation) = Some true ->
  _both_sides_pow_ineq relation (Some (Integer (-1))) None (Some v) =
    ([ask_positive (lhs relation); ask_positive (lhs relation);
      ask_negative (lhs relation); ask_positive (rhs relation);
      ask_negative (lhs relation); ask_negative (rhs relation)],
     Return (Single (Rel (mkRelational inverse
                            (truediv (Integer 1) (lhs relation))
                            (truediv (Integer 1) (rhs relation)))))).
Proof.
  intros Hget Hpl Hpr Hnl Hnr. unfold _both_sides_pow_ineq, py_and.
  rewrite decide_True by reflexivity.
  rewrite (provably_positive_false _ Hpl), (provably_positive_false _ Hpr),
    (provably_negative_true _ Hnl), (provably_negative_true _ Hnr).
  cbn. rewrite (getitem_inverse _ _ Hget). reflexivity.
Qed.

(** X8. The reciprocal under global assumptions, sides of provably opposite
    signs, a variable being supplied: the unevaluated relational of the SAME
    kind on [1/lhs] and [1/rhs], for every kind of relation. *)
Theorem reciprocal_opposite_signs_keep_kind relation v :
  (is_positive (lhs relation) = Some true /\
   is_positive (rhs relation) <> Some true /\
   is_negative (rhs relation) = Some true) \/
  (is_positive (lhs relation) <> Some true /\
   is_negative (lhs relation) = Some true /\
   is_positive (rhs relation) = Some true) ->
  result (_both_sides_pow_ineq relation (Some (Integer (-1))) None (Some v)) =
    Return (Single (Rel (mkRelational (func relation)
                           (truediv (Integer 1) (lhs relation))
                           (truediv (Integer 1) (rhs relation))))).
Proof.
  intros Hsigns. unfold _both_sides_pow_ineq, py_and.
  rewrite decide_True by reflexivity.
  destruct Hsigns as [(Hpl & Hpr & Hnr)|(Hpl & Hnl & Hpr)].
  - rewrite (provably_positive_true _ Hpl), (provably_positive_false _ Hpr),
      (provably_negative_true _ Hnr). reflexivity.
  - rewrite (provably_positive_false _ Hpl), (provably_positive_true _ Hpr),
      (provably_negative_true _ Hnl). reflexivity.
Qed.

(** X9. The reciprocal under global assumptions when the sign of a side is
    unknown and neither side is the literal zero: [ValueError], for every
    kind of relation. *)
Theorem reciprocal_unknown_sign_ValueError relation v :
  (is_positive (lhs relation) <> Some true /\
   is_negative (lhs relation) <> Some true) \/
  (is_positive (rhs relation) <> Some true /\
   is_negative (rhs relation) <> Some true) ->
  lhs relation <> Integer 0 ->
  rhs relation <> Integer 0 ->
  result (_both_sides_pow_ineq relation (Some (Integer (-1))) None (Some v)) =
    Raise ValueError.
Proof.
  intros Hunknown Hl Hr.
  unfold _both_sides_pow_ineq, py_and, provably_positive, provably_negative, result.
  rewrite decide_True by reflexivity.
  repeat case_bool_decide; cbn;
    try (exfalso; destruct Hunknown as [[? ?]|[? ?]]; congruence);
    rewrite !decide_False by assumption; reflexivity.
Qed.

(** X10. Inverting an inequality twice: [invert_ineq] returns the relational
    of the inverse kind on the negated sides, and applied to that it returns
    a relational of the original kind, on the doubly negated sides. *)
Theorem invert_ineq_twice (ineq : Relational Expr) :
  func ineq ∈ [Ge; Le; Gt; Lt] ->
  exists once,
    invert_ineq ineq = ([], Return (Rel once)) /\
    func once <> func ineq /\
    lhs once = neg (lhs ineq) /\
    rhs once = neg (rhs ineq) /\
    invert_ineq once =
      ([], Return (Rel (mkRelational (func ineq)
                          (neg (neg (lhs ineq))) (neg (neg (rhs ineq)))))).
Proof.
  intros Hin.
  destruct (inverse_relations_lookup _ Hin) as (inverse & Hget & Hback & Hne).
  exists (mkRelational inverse (neg (lhs ineq)) (neg (rhs ineq))).
  unfold invert_ineq. rewrite (getitem_inverse _ _ Hget). cbn.
  rewrite (getitem_inverse _ _ Hback). repeat split. assumption.
Qed.

(** X11. [invert_ineq] on an equation or an unequality: [KeyError], the
    table having no entry for [Eq] and [Ne]. *)
Theorem invert_ineq_KeyError (ineq : Relational Expr) :
  func ineq ∈ [Eq; Ne] ->
  invert_ineq (SymSet := SymSet) ineq = ([], Raise KeyError).
Proof.
  intros Hin. unfold invert_ineq, getitem.
  decompose_list_elem_of; match goal with H : func _ = _ |- _ => rewrite H end;
    reflexivity.
Qed.

(** X12. An unequality ([Ne]) through [both_sides]: it is not an equation,
    so it takes the inequality branches, and every one that inverts the
    direction raises [KeyError]: multiplication by a provably negative
    argument, multiplication over an interval (after its three [solveset]
    queries), and the reciprocal over an interval when no side is the
    literal zero. *)
Theorem both_sides_Ne_KeyError relation c domain v :
  func relation = Ne ->
  (is_positive c <> Some true -> is_negative c = Some true ->
   both_sides relation Mul (Some c) None None =
     ([ask_positive c; ask_negative c], Raise KeyError)) /\
  both_sides relation Mul (Some c) (Some domain) (Some v) =
    ([ask_solveset (new_relational Gt c (Integer 0) true) (Some v) domain;
      ask_solveset (new_relational Lt c (Integer 0) true) (Some v) domain;
      ask_solveset (Ex c) (Some v) domain],
     Raise KeyError) /\
  (lhs relation <> Integer 0 -> rhs relation <> Integer 0 ->
   result (both_sides relation Pow (Some (Integer (-1))) (Some domain) (Some v)) =
     Raise KeyError).
Proof.
  intros Hk. split; [|split].
  - intros Hpos Hneg. unfold both_sides, _both_sides_mul_ineq, getitem.
    rewrite Hk, (provably_positive_false _ Hpos), (provably_negative_true _ Hneg).
    reflexivity.
  - unfold both_sides, _both_sides_mul_ineq, getitem. rewrite Hk. reflexivity.
  - intros Hl Hr. unfold both_sides, _both_sides_pow_ineq, getitem, result.
    rewrite Hk. cbn.
    rewrite (decide_True (P := Some (Integer (-1)) = Some (Integer (-1)))) by reflexivity.
    cbn. rewrite (decide_False (P := lhs relation = Integer 0)) by assumption.
    rewrite (decide_False (P := rhs relation = Integer 0)) by assumption.
    reflexivity.
Qed.

End DispatchFacts.

(** ** The reciprocal over an interval *)

Section ReciprocalInterval.

Context {Expr SymSet : Type} `{!SymPy Expr SymSet}.

Implicit Types (relation : Relational Expr) (variable : option Expr)
  (domain : SymSet) (d : dict.t SymSet (Basic Expr)) (k : SymSet) (b : Basic Expr).

Lemma store_nonempty_keys d k b k' :
  k' ∈ dict.keys (store_nonempty d k b) <->
  (k' = k /\ k <> EmptySet) \/ k' ∈ dict.keys d.
Proof.
  unfold store_nonempty. destruct (decide (k <> EmptySet)) as [Hne|He].
  - rewrite dict_keys_setitem. tauto.
  - tauto.
Qed.

Lemma store_nonempty_NoDup d k b :
  NoDup (dict.keys d) -> NoDup (dict.keys (store_nonempty d k b)).
Proof.
  unfold store_nonempty. destruct (decide (k <> EmptySet)); [|auto].
  apply dict_keys_setitem_NoDup.
Qed.

Lemma store_nonempty_get d k b k' :
  k' <> EmptySet ->
  dict.get (store_nonempty d k b) k' =
  if decide (k = k') then Some b else dict.get d k'.
Proof.
  intros Hk'. unfold store_nonempty. destruct (decide (k <> EmptySet)) as [Hne|He].
  - apply dict_get_setitem.
  - destruct (decide (k = k')) as [->|]; [contradiction|reflexivity].
Qed.

(** "Method 2" on an inequality with no zero side: four [solveset] queries,
    then the four conditional stores. *)
Lemma pow_interval_cases relation variable domain inverse :
  dict.get _inverse_relations (func relation) = Some inverse ->
  lhs relation <> Integer 0 ->
  rhs relation <> Integer 0 ->
  _both_sides_pow_ineq relation (Some (Integer (-1))) (Some domain) variable =
    ([ask_solveset (new_relational Gt (lhs relation) (Integer 0) true) variable domain;
      ask_solveset (new_relational Gt (rhs relation) (Integer 0) true) variable domain;
      ask_solveset (new_relational Lt (lhs relation) (Integer 0) true) variable domain;
      ask_solveset (new_relational Lt (rhs relation) (Integer 0) true) variable domain],
     Return (Cases
       (store_nonempty
          (store_nonempty
             (store_nonempty
                (store_nonempty dict.empty
                   (nn_interval relation variable domain)
                   (reciprocal_relation inverse relation))
                (pp_interval relation variable domain)
                (reciprocal_relation inverse relation))
             (pn_interval relation variable domain)
             (reciprocal_relation (func relation) relation))
          (np_interval relation variable domain)
          (reciprocal_relation (func relation) relation)))).
Proof.
  intros Hget Hl Hr. unfold _both_sides_pow_ineq, ask_solve.
  rewrite decide_True by reflexivity. cbn.
  rewrite (decide_False (P := lhs relation = Integer 0)) by assumption.
  rewrite (decide_False (P := rhs relation = Integer 0)) by assumption.
  rewrite (getitem_inverse _ _ Hget). reflexivity.
Qed.

(** X13. The reciprocal of an inequality over an interval, no side being
    the literal zero: four [solveset] queries and a dictionary whose keys
    are exactly the non-empty ones among the four sign regions, each once
    (the empty set is never a key).  A region where the sides have opposite
    signs maps to the relational of the same kind; any other region maps to
    the relational of the inverse kind.  When a same-sign region and an
    opposite-sign region are equal as sets, the opposite-sign answer, stored
    later, is the one kept. *)
Theorem reciprocal_interval_regions relation variable domain inverse :
  dict.get _inverse_relations (func relation) = Some inverse ->
  lhs relation <> Integer 0 ->
  rhs relation <> Integer 0 ->
  let nn := nn_interval relation variable domain in
  let pp := pp_interval relation variable domain in
  let pn := pn_interval relation variable domain in
  let np := np_interval relation variable domain in
  exists d,
    result (_both_sides_pow_ineq relation (Some (Integer (-1))) (Some domain) variable) =
      Return (Cases d) /\
    length (queries (_both_sides_pow_ineq relation (Some (Integer (-1)))
                       (Some domain) variable)) = 4 /\
    NoDup (dict.keys d) /\
    (forall k, k ∈ dict.keys d <->
               k <> EmptySet /\ (k = nn \/ k = pp \/ k = pn \/ k = np)) /\
    (forall k, k ∈ dict.keys d ->
       dict.get d k =
         Some (if decide (k = pn \/ k = np)
               then reciprocal_relation (func relation) relation
               else reciprocal_relation inverse relation)).
Proof.
  intros Hget Hl Hr nn pp pn np.
  rewrite (pow_interval_cases _ _ _ _ Hget Hl Hr). fold nn pp pn np.
  clearbody nn pp pn np. eexists. split; [reflexivity|]. split; [reflexivity|].
  assert (forall k,
    k ∈ dict.keys
          (store_nonempty
             (store_nonempty
                (store_nonempty
                   (store_nonempty dict.empty nn (reciprocal_relation inverse relation))
                   pp (reciprocal_relation inverse relation))
                pn (reciprocal_relation (func relation) relation))
             np (reciprocal_relation (func relation) relation)) <->
    k <> EmptySet /\ (k = nn \/ k = pp \/ k = pn \/ k = np)) as Hkeys.
  { intros k. rewrite !store_nonempty_keys. unfold dict.keys, dict.empty.
    rewrite fmap_nil, elem_of_nil. split.
    - intros [[-> ?]|[[-> ?]|[[-> ?]|[[-> ?]|[]]]]]; tauto.
    - intros [Hne [->|[->|[->| ->]]]]; tauto. }
  split; [|split; [exact Hkeys|]].
  - do 4 apply store_nonempty_NoDup. apply NoDup_nil_2.
  - intros k Hin. apply Hkeys in Hin as [Hne Hk]. clear Hkeys.
    rewrite !store_nonempty_get by assumption. simpl.
    repeat case_decide; try reflexivity; exfalso; intuition congruence.
Qed.

End ReciprocalInterval.

(** ** What every call keeps, and what it never asks *)

Section Invariants.

Context {Expr SymSet : Type} `{!SymPy Expr SymSet}.

Implicit Types (relation : Relational Expr) (argument variable : option Expr)
  (interval : option SymSet) (domain : SymSet) (d : dict.t SymSet (Basic Expr))
  (k : SymSet) (b : Basic Expr) (res : Result Expr SymSet).

Lemma direction_kept_same relation l r evaluate :
  direction_kept relation (new_relational (func relation) l r evaluate).
Proof.
  unfold new_relational. destruct evaluate; [|left; reflexivity].
  destruct (fuzzy_relation _ _ _) as [[]|]; simpl; auto.
Qed.

Lemma direction_kept_inverse relation inverse l r :
  dict.get _inverse_relations (func relation) = Some inverse ->
  direction_kept relation (new_relational inverse l r false).
Proof. intros Hget. right. exact Hget. Qed.

Lemma Forall_answers_setitem (P : Basic Expr -> Prop) d k b :
  Forall P (snd <$> d) -> P b -> Forall P (snd <$> dict.setitem d k b).
Proof.
  intros Hd Hb. induction d as [|[k0 b0] d IH]; simpl.
  - repeat constructor. exact Hb.
  - apply Forall_cons in Hd as [Hb0 Hd].
    destruct (decide (k0 = k)); simpl; constructor; auto.
Qed.

Lemma Forall_answers_store_nonempty (P : Basic Expr -> Prop) d k b :
  Forall P (snd <$> d) -> P b -> Forall P (snd <$> store_nonempty d k b).
Proof.
  intros Hd Hb. unfold store_nonempty. destruct (decide (k <> EmptySet)); [|exact Hd].
  apply Forall_answers_setitem; assumption.
Qed.

Local Opaque dict.setitem new_relational.

Lemma mul_keeps_or_inverts_direction relation argument interval variable res :
  result (_both_sides_mul_ineq relation argument interval variable) = Return res ->
  Forall (direction_kept relation) (answers res).
Proof.
  unfold _both_sides_mul_ineq, provably_positive, provably_negative, ask_solve,
    getitem, result.
  destruct (dict.get _inverse_relations (func relation)) as [inverse|] eqn:Hget;
    destruct interval as [domain|], argument as [c|], variable as [v|];
    cbn -[dict.setitem new_relational]; try discriminate;
    repeat (destruct (bool_decide _); cbn -[dict.setitem new_relational]);
    repeat (destruct (decide _); cbn -[dict.setitem new_relational]);
    try discriminate;
    intros [= <-]; cbn -[dict.setitem new_relational];
    repeat apply Forall_answers_setitem; try apply Forall_nil_2;
    try (apply Forall_cons_2; [|apply Forall_nil_2]);
    try apply direction_kept_same;
    try (apply direction_kept_inverse; exact Hget).
Qed.

Lemma pow_keeps_or_inverts_direction relation argument interval variable res :
  result (_both_sides_pow_ineq relation argument interval variable) = Return res ->
  Forall (direction_kept relation) (answers res).
Proof.
  unfold _both_sides_pow_ineq, py_and, provably_positive, provably_negative,
    ask_solve, getitem, result.
  destruct (decide (argument = Some (Integer (-1)))); [|discriminate].
  destruct (dict.get _inverse_relations (func relation)) as [inverse|] eqn:Hget;
    destruct interval as [domain|], variable as [v|];
    cbn -[dict.setitem new_relational]; try discriminate;
    repeat (destruct (bool_decide _); cbn -[dict.setitem new_relational]);
    try (destruct (decide (lhs relation = Integer 0)); [discriminate|]);
    try (destruct (decide (rhs relation = Integer 0)); [discriminate|]);
    try discriminate;
    intros [= <-]; cbn -[dict.setitem new_relational];
    repeat apply Forall_answers_store_nonempty; try apply Forall_nil_2;
    try (apply Forall_cons_2; [|apply Forall_nil_2]);
    try apply direction_kept_same;
    try (apply direction_kept_inverse; exact Hget).
Qed.

Local Transparent dict.setitem new_relational.

(** X14. Whatever the function, argument, interval and variable, a call of
    [both_sides] on a relation that is not an equation, when it returns,
    returns only relationals of the kind of the relation or of the kind the
    table of inverses gives for it, and Boolean atoms: the single answer, or
    every value of the dictionary.  In particular it never returns an
    equation. *)
Theorem both_sides_keeps_or_inverts_direction
    relation function argument interval variable res :
  func relation <> Eq ->
  result (both_sides relation function argument interval variable) = Return res ->
  Forall (direction_kept relation) (answers res).
Proof.
  intros Hk. unfold both_sides. rewrite decide_False by assumption.
  destruct (decide (function = Add)).
  { unfold _both_sides_add_ineq. destruct argument; [|discriminate].
    intros [= <-]. apply Forall_cons_2; [left; reflexivity|apply Forall_nil_2]. }
  destruct (decide (function = Mul)); [apply mul_keeps_or_inverts_direction|].
  destruct (decide (function = Pow)); [apply pow_keeps_or_inverts_direction|].
  destruct (decide (function ∈ _)); [|discriminate].
  unfold apply, result.
  destruct (call function [Some (lhs relation)]); [discriminate|].
  destruct (call function [Some (rhs relation)]); [discriminate|].
  intros [= <-]. apply Forall_cons_2; [left; reflexivity|apply Forall_nil_2].
Qed.

(** X15. Without an interval, [both_sides] asks the sign oracle only:
    [solveset] is never called, whatever the relation, the function, the
    argument and the variable are. *)
Theorem global_mode_never_solves relation function argument variable :
  Forall (fun q => is_sign_query q = true)
         (queries (both_sides relation function argument None variable)).
Proof.
  unfold both_sides, _both_sides_add_ineq, _both_sides_mul_ineq,
    _both_sides_pow_ineq, py_and, provably_positive, provably_negative,
    apply, getitem, queries.
  repeat (cbn;
    match goal with
    | |- context [decide ?P] => destruct (decide P)
    | |- context [bool_decide ?P] => destruct (bool_decide P)
    | |- context [call ?f ?a] => destruct (call f a)
    | |- context [dict.get ?t ?c] => destruct (dict.get t c)
    | |- context [match ?o with Some _ => _ | None => _ end] => destruct o
    end);
    cbn; repeat constructor.
Qed.

(** X16. With an interval, [both_sides] asks [solveset] only, and always
    for the variable and over the interval it was given: the sign oracle is
    never asked. *)
Theorem interval_mode_asks_solveset_only relation function argument domain variable :
  Forall (solves_over variable domain)
         (queries (both_sides relation function argument (Some domain) variable)).
Proof.
  unfold both_sides, _both_sides_add_ineq, _both_sides_mul_ineq,
    _both_sides_pow_ineq, ask_solve, apply, getitem, queries.
  repeat (cbn;
    match goal with
    | |- context [decide ?P] => destruct (decide P)
    | |- context [call ?f ?a] => destruct (call f a)
    | |- context [dict.get ?t ?c] => destruct (dict.get t c)
    | |- context [match ?o with Some _ => _ | None => _ end] => destruct o
    end);
    cbn; repeat constructor; eexists; reflexivity.
Qed.

(** X17. An exception of the function is the exception of [both_sides]: on
    an equation, when the call on [lhs] (with the argument) raises, or the
    call on [lhs] returns and the call on [rhs] raises; on any other
    relation and a function of the rewriting list, the same for the
    one-argument calls.  Nothing is asked on the way. *)
Theorem both_sides_function_error relation function argument interval variable e :
  (func relation = Eq ->
   call function [Some (lhs relation); argument] = inl e \/
   (exists l, call function [Some (lhs relation); argument] = inr l /\
              call function [Some (rhs relation); argument] = inl e) ->
   both_sides relation function argument interval variable = ([], Raise e)) /\
  (func relation <> Eq ->
   function ∈ [factor; simplify; collect; expand; together; apart] ->
   call function [Some (lhs relation)] = inl e \/
   (exists l, call function [Some (lhs relation)] = inr l /\
              call function [Some (rhs relation)] = inl e) ->
   both_sides relation function argument interval variable = ([], Raise e)).
Proof.
  split.
  - intros Hk Hcall. unfold both_sides, apply. rewrite decide_True by assumption.
    destruct Hcall as [Hl|(l & Hl & Hr)]; rewrite Hl; [reflexivity|].
    cbn. rewrite Hr. reflexivity.
  - intros Hk Hin Hcall. unfold both_sides, apply.
    rewrite decide_False by assumption.
    rewrite (decide_True (P := function ∈ _)) by assumption.
    destruct Hcall as [Hl|(l & Hl & Hr)]; rewrite Hl; try (cbn; rewrite Hr);
      decompose_list_elem_of; subst; reflexivity.
Qed.

(** X18. On an equation the two files agree: [both_sides] of
    [sympy_relational_tools.py] is [both_sides] of [sympy_equation_tools.py],
    result, exception and (empty) log alike, whatever interval and variable
    are passed to the former. *)
Theorem both_sides_agrees_with_equation_tools
    relation function argument interval variable :
  func relation = Eq ->
  both_sides relation function argument interval variable =
    sympy_equation_tools.both_sides relation function argument.
Proof.
  intros Hk. unfold both_sides, sympy_equation_tools.both_sides.
  rewrite decide_True by assumption. reflexivity.
Qed.

End Invariants.

(** ** More runs on the test double *)

Section MoreOnTheDouble.

Import Double.
Local Open Scope Z_scope.

(** X1 at [5*x + x**2 >= x + 5] with [-5*x] (the double does not collect
    terms), and with no argument. *)
Lemma both_sides_add_shift_example :
  both_sides (mkRelational Ge (add (mul (Int 5) x) (pow x 2)) (add x (Int 5)))
      Add (Some (mul (Int (-5)) x)) (Some (Interval 0 1)) None =
    ([], Return (Single (Rel (mkRelational Ge
       (Sum (Sum (Product (Int 5) x) (Power x 2)) (Product (Int (-5)) x))
       (Sum (Sum x (Int 5)) (Product (Int (-5)) x)))))) /\
  both_sides (mkRelational Ge (add (mul (Int 5) x) (pow x 2)) (add x (Int 5)))
      Add None (Some (Interval 0 1)) None = ([], Raise TypeError).
Proof.
  refine (both_sides_add_shift
            (mkRelational Ge (add (mul (Int 5) x) (pow x 2)) (add x (Int 5)))
            (mul (Int (-5)) x) (Some (Interval 0 1)) None _).
  discriminate.
Defined.

(** X2 at [x + 1 >= 0] times the positive [a]. *)
Lemma mul_positive_keeps_kind_example :
  _both_sides_mul_ineq (mkRelational Ge (add x (Int 1)) (Int 0)) (Some a) None None =
    ([ask_positive a],
     Return (Single (Rel (mkRelational Ge (Product (Sum x (Int 1)) a) (Int 0))))).
Proof.
  refine (mul_positive_keeps_kind (mkRelational Ge (add x (Int 1)) (Int 0)) a None _).
  reflexivity.
Defined.

(** X3 at [x + 1 >= 0] times a negative symbol: [<=]. *)
Lemma mul_negative_inverts_kind_example :
  _both_sides_mul_ineq (mkRelational Ge (add x (Int 1)) (Int 0))
      (Some y_negative) None None =
    ([ask_positive y_negative; ask_negative y_negative],
     Return (Single (Rel (mkRelational Le
                            (Product (Sum x (Int 1)) y_negative) (Int 0))))).
Proof.
  refine (mul_negative_inverts_kind (mkRelational Ge (add x (Int 1)) (Int 0))
            y_negative None Le _ _ _);
    [reflexivity | discriminate | reflexivity].
Defined.

(** X4 at [x + 1 >= 0] times [x], a real symbol of unknown sign. *)
Lemma mul_unknown_sign_ValueError_example :
  _both_sides_mul_ineq (mkRelational Ge (add x (Int 1)) (Int 0)) (Some x) None None =
    ([ask_positive x; ask_negative x], Raise ValueError).
Proof.
  refine (mul_unknown_sign_ValueError (mkRelational Ge (add x (Int 1)) (Int 0))
            x None _ _ _);
    discriminate.
Defined.

(** X5 at [x >= 1] squared. *)
Lemma both_sides_other_power_example :
  both_sides (mkRelational Ge x (Int 1)) Pow (Some (Int 2)) None (Some x) =
    ([], Raise NotImplementedError).
Proof.
  refine (both_sides_other_power (mkRelational Ge x (Int 1)) (Some (Int 2))
            None (Some x) _ _);
    discriminate.
Defined.

(** X6 at [x >= 1] with a callable named [sin]. *)
Lemma both_sides_unknown_function_example :
  both_sides (mkRelational Ge x (Int 1)) (Callable "sin") None None None =
    ([], Raise NotImplementedError).
Proof.
  refine (both_sides_unknown_function (mkRelational Ge x (Int 1)) "sin"
            None None None _).
  discriminate.
Defined.

(** X7 at [x >= y] with both symbols negative: [1/x <= 1/y]. *)
Lemma reciprocal_both_negative_inverts_example :
  _both_sides_pow_ineq (mkRelational Ge x_negative y_negative)
      (Some (Int (-1))) None (Some x_negative) =
    ([ask_positive x_negative; ask_positive x_negative;
      ask_negative x_negative; ask_positive y_negative;
      ask_negative x_negative; ask_negative y_negative],
     Return (Single (Rel (mkRelational Le (Power x_negative (-1))
                                         (Power y_negative (-1)))))).
Proof.
  refine (reciprocal_both_negative_inverts (mkRelational Ge x_negative y_negative)
            x_negative Le _ _ _ _ _);
    first [reflexivity | discriminate].
Defined.

(** X8 at [a >= y] with [a] positive and [y] negative: [1/a >= 1/y]. *)
Lemma reciprocal_opposite_signs_keep_kind_example :
  result (_both_sides_pow_ineq (mkRelational Ge a y_negative)
            (Some (Int (-1))) None (Some a)) =
    Return (Single (Rel (mkRelational Ge (Power a (-1)) (Power y_negative (-1))))).
Proof.
  refine (reciprocal_opposite_signs_keep_kind (mkRelational Ge a y_negative) a _).
  left. repeat split; first [reflexivity | discriminate].
Defined.

(** X9 at [x >= a] with [x] of unknown sign. *)
Lemma reciprocal_unknown_sign_ValueError_example :
  result (_both_sides_pow_ineq (mkRelational Ge x a) (Some (Int (-1))) None (Some x)) =
    Raise ValueError.
Proof.
  refine (reciprocal_unknown_sign_ValueError (mkRelational Ge x a) x _ _ _);
    [left; split; discriminate | discriminate | discriminate].
Defined.

(** X10 at the docstring's [x >= 3]: [-x <= -3], and back to [>=]. *)
Lemma invert_ineq_twice_example :
  exists once,
    invert_ineq (SymSet := sset) (mkRelational Ge x (Int 3)) =
      ([], Return (Rel once)) /\
    func once <> Ge /\
    lhs once = Product (Int (-1)) x /\
    rhs once = Int (-3) /\
    invert_ineq (SymSet := sset) once =
      ([], Return (Rel (mkRelational Ge
                          (Product (Int (-1)) (Product (Int (-1)) x)) (Int 3)))).
Proof.
  refine (invert_ineq_twice (SymSet := sset) (mkRelational Ge x (Int 3)) _).
  simpl. repeat constructor.
Defined.

(** X11 at [Eq(x, 3)]. *)
Lemma invert_ineq_KeyError_example :
  invert_ineq (SymSet := sset) (mkRelational Eq x (Int 3)) = ([], Raise KeyError).
Proof.
  refine (invert_ineq_KeyError (mkRelational Eq x (Int 3)) _).
  simpl. repeat constructor.
Defined.

(** X12 at [Ne(x, 1)]. *)
Lemma both_sides_Ne_KeyError_example :
  both_sides (mkRelational Ne x (Int 1)) Mul (Some y_negative) None None =
    ([ask_positive y_negative; ask_negative y_negative], Raise KeyError) /\
  both_sides (mkRelational Ne x (Int 1)) Mul (Some a) (Some (Interval (-1) 1)) (Some x) =
    ([ask_solveset BooleanTrue (Some x) (Interval (-1) 1);
      ask_solveset BooleanFalse (Some x) (Interval (-1) 1);
      ask_solveset (Ex a) (Some x) (Interval (-1) 1)],
     Raise KeyError) /\
  result (both_sides (mkRelational Ne x (Int 1)) Pow (Some (Int (-1)))
            (Some (Interval (-1) 1)) (Some x)) = Raise KeyError.
Proof.
  split; [|split].
  - refine (proj1 (both_sides_Ne_KeyError (mkRelational Ne x (Int 1)) y_negative
                     (Interval (-1) 1) x _) _ _);
      first [reflexivity | discriminate].
  - refine (proj1 (proj2 (both_sides_Ne_KeyError (mkRelational Ne x (Int 1)) a
                            (Interval (-1) 1) x _))).
    reflexivity.
  - refine (proj2 (proj2 (both_sides_Ne_KeyError (mkRelational Ne x (Int 1)) a
                            (Interval (-1) 1) x _)) _ _);
      first [reflexivity | discriminate].
Defined.

(** X13 at the docstring's [x + 1 >= x**2] on [[-1, 1]]. *)
Lemma reciprocal_interval_regions_example :
  exists d,
    result (_both_sides_pow_ineq docstring_inequality (Some (Int (-1)))
              (Some (Interval (-1) 1)) (Some x)) = Return (Cases d) /\
    length (queries (_both_sides_pow_ineq docstring_inequality (Some (Int (-1)))
                       (Some (Interval (-1) 1)) (Some x))) = 4%nat /\
    NoDup (dict.keys d) /\
    (forall k, k ∈ dict.keys d <->
       k <> Empty /\
       (k = nn_interval docstring_inequality (Some x) (Interval (-1) 1) \/
        k = pp_interval docstring_inequality (Some x) (Interval (-1) 1) \/
        k = pn_interval docstring_inequality (Some x) (Interval (-1) 1) \/
        k = np_interval docstring_inequality (Some x) (Interval (-1) 1))) /\
    (forall k, k ∈ dict.keys d ->
       dict.get d k =
         Some (if decide
                    (k = pn_interval docstring_inequality (Some x) (Interval (-1) 1) \/
                     k = np_interval docstring_inequality (Some x) (Interval (-1) 1))
               then reciprocal_relation Ge docstring_inequality
               else reciprocal_relation Le docstring_inequality)).
Proof.
  refine (reciprocal_interval_regions docstring_inequality (Some x)
            (Interval (-1) 1) Le _ _ _);
    first [reflexivity | discriminate].
Defined.

(** X14 at [x + 1 >= 0] times the positive [a] on [[-1, 1]]: a [>=]
    relational and a Boolean. *)
Lemma both_sides_keeps_or_inverts_direction_example :
  Forall (direction_kept (mkRelational Ge (add x (Int 1)) (Int 0)))
    [Rel (mkRelational Ge (Product (Sum x (Int 1)) a) (Int 0)); BooleanTrue].
Proof.
  refine (both_sides_keeps_or_inverts_direction
            (mkRelational Ge (add x (Int 1)) (Int 0)) Mul (Some a)
            (Some (Interval (-1) 1)) (Some x)
            (Cases [(Interval (-1) 1,
                     Rel (mkRelational Ge (Product (Sum x (Int 1)) a) (Int 0)));
                    (Empty, BooleanTrue)]) _ _);
    first [reflexivity | discriminate].
Defined.

(** X17 at [x >= 2] with [collect]: the one-argument call lacks the symbols
    to collect. *)
Lemma both_sides_function_error_example :
  both_sides (mkRelational Ge x (Int 2)) collect (Some x) None None =
    ([], Raise TypeError).
Proof.
  refine (proj2 (both_sides_function_error (mkRelational Ge x (Int 2)) collect
                   (Some x) None None TypeError) _ _ _).
  - discriminate.
  - repeat constructor.
  - left. reflexivity.
Defined.

(** X18 at [Eq(x, 2)] with [expand]. *)
Lemma both_sides_agrees_with_equation_tools_example :
  both_sides (mkRelational Eq x (Int 2)) expand None (Some (Interval 0 1)) (Some x) =
    sympy_equation_tools.both_sides (mkRelational Eq x (Int 2)) expand None.
Proof.
  refine (both_sides_agrees_with_equation_tools (mkRelational Eq x (Int 2)) expand
            None (Some (Interval 0 1)) (Some x) _).
  reflexivity.
Defined.

End MoreOnTheDouble.
